(** * HttpService (src/lib/http.service.ts): a shallow embedding

    The module wraps one axios instance.  It keeps a module-level
    [authToken], the instance's default [Authorization] header, one response
    interceptor, the label table [getErrorMessage] and the [HttpService]
    object with [setAuthToken], [request] and the five wrappers.

    The error values that reach the interceptor and the [catch] block are
    typed [any] in the source, so they are modelled as untyped JavaScript
    values; property reads, optional chaining and [??] follow the language.
    axios itself is a dependency, not part of the module: what it does on the
    wire is a parameter ([dispatch]), and only the way it chains the
    registered response interceptor on the dispatch promise is modelled.

    The router's navigation guard (src/router) is embedded after the
    service, over the target's path and [localStorage]. *)

From Stdlib Require Import String List ZArith.
Import ListNotations.
Local Open Scope string_scope.

(** ** JavaScript values *)

(** Numbers are integer valued here: the only numbers the module inspects are
    HTTP status codes, compared with [===] against integer literals.
    Objects are own-property lists; getters and proxies are outside the
    model. *)
#[warnings="-register-all"] Inductive value : Type :=
| VUndefined
| VNull
| VBool (b : bool)
| VNumber (n : Z)
| VString (s : string)
| VObject (fields : list (string * value)).

Definition nullish (v : value) : bool :=
  match v with
  | VUndefined | VNull => true
  | _ => false
  end.

Definition lookup_field (p : string) (fields : list (string * value)) : option value :=
  match find (fun kv => String.eqb (fst kv) p) fields with
  | Some kv => Some (snd kv)
  | None => None
  end.

Definition has_own (v : value) (p : string) : bool :=
  match v with
  | VObject fields =>
      match lookup_field p fields with Some _ => true | None => false end
  | _ => false
  end.

(** [v.p] for a [v] that is neither [undefined] nor [null]: a missing
    property, or any of the properties read here on a primitive, is
    [undefined]. *)
Definition read_field (v : value) (p : string) : value :=
  match v with
  | VObject fields =>
      match lookup_field p fields with Some x => x | None => VUndefined end
  | _ => VUndefined
  end.

(** ** Completions: a value or a thrown value *)

Inductive completion (A : Type) : Type :=
| Normal (a : A)
| Throw (e : value).
Arguments Normal {A} a.
Arguments Throw {A} e.

Definition type_name (v : value) : string :=
  match v with
  | VNull => "null"
  | _ => "undefined"
  end.

(** The [TypeError] raised by a property read on [undefined] or [null].
    The wording is the engine's; no statement below depends on it. *)
Definition TypeError (v : value) (p : string) : value :=
  VObject
    [("name", VString "TypeError");
     ("message",
      VString ("Cannot read properties of " ++ type_name v
               ++ " (reading '" ++ p ++ "')"))].

(** [v.p] *)
Definition get_prop (v : value) (p : string) : completion value :=
  if nullish v then Throw (TypeError v p) else Normal (read_field v p).

(** [v?.p] *)
Definition opt_prop (v : value) (p : string) : value :=
  if nullish v then VUndefined else read_field v p.

(** [a ?? b]: [b] is evaluated only when [a] is [undefined] or [null]. *)
Definition coalesce (a : value) (b : completion value) : completion value :=
  if nullish a then b else Normal a.

(** ** Promises *)

Inductive settled : Type :=
| Fulfilled (v : value)
| Rejected (reason : value).

(** What a [then] handler hands back: a plain value or a promise. *)
Inductive returned : Type :=
| RValue (v : value)
| RPromise (p : settled).

(** [p.then(onFulfilled, onRejected)]: a handler that throws rejects the
    derived promise, a returned promise is adopted. *)
Definition promise_then (p : settled)
    (onFulfilled onRejected : value -> completion returned) : settled :=
  match (match p with
         | Fulfilled v => onFulfilled v
         | Rejected e => onRejected e
         end) with
  | Throw e => Rejected e
  | Normal (RValue v) => Fulfilled v
  | Normal (RPromise q) => q
  end.

(** ** The module *)

(** [getErrorMessage(status)]: a [switch] compares with [===], so only the
    number itself selects a case. *)
Definition getErrorMessage (status : value) : string :=
  match status with
  | VNumber 400 => "Bad Request"
  | VNumber 401 => "Unauthorized"
  | VNumber 403 => "Forbidden"
  | VNumber 404 => "Not Found"
  | VNumber 500 => "Internal Server Error"
  | _ => "Error"
  end.

(** The object literal [{ message, status, errorMessage }]. *)
Definition failure_record (message status : value) (errorMessage : string) : value :=
  VObject
    [("message", message); ("status", status);
     ("errorMessage", VString errorMessage)].

(** The response interceptor, first handler: [(response) => response]. *)
Definition interceptor_onFulfilled (response : value) : completion returned :=
  Normal (RValue response).

(** The response interceptor, second handler (lines 43-48). *)
Definition interceptor_onRejected (error : value) : completion returned :=
  match get_prop error "response" with
  | Throw e => Throw e
  | Normal r1 =>
      let status := opt_prop r1 "status" in
      match get_prop error "response" with
      | Throw e => Throw e
      | Normal r2 =>
          match coalesce (opt_prop (opt_prop r2 "data") "message")
                         (get_prop error "message") with
          | Throw e => Throw e
          | Normal message =>
              let errorMessage := getErrorMessage status in
              Normal (RPromise (Rejected (failure_record message status errorMessage)))
          end
      end
  end.

(** [string | null] tested as a condition: [null] and the empty string are
    falsy. *)
Definition truthy (token : option string) : bool :=
  match token with
  | Some s => negb (String.eqb s "")
  | None => false
  end.

(** [${token}] inside a template literal. *)
Definition template (token : option string) : string :=
  match token with
  | Some s => s
  | None => "null"
  end.

(** [token ? `Bearer ${token}` : ""] *)
Definition bearer (token : option string) : string :=
  if truthy token then "Bearer " ++ template token else "".

(** The mutable state the module owns: the [authToken] variable and
    [http.defaults.headers.common["Authorization"]]. *)
Record State : Type := mkState {
  authToken : option string;
  Authorization : string
}.

(** State once the module has been loaded (lines 15 and 34-36). *)
Definition initial_state : State :=
  let authToken0 : option string := None in
  mkState authToken0 (bearer authToken0).

Inductive Method : Type := GET | POST | PUT | PATCH | DELETE.

(** The call [http[method](url, data)] as the instance receives it: the two
    arguments as passed (for [get] and [delete] axios reads the second one as
    a request configuration, for the others as the body), with the base URL
    and the default [Authorization] header of the instance at that moment. *)
Record AxiosCall : Type := mkCall {
  call_method : Method;
  call_url : string;
  call_data : value;
  call_baseURL : string;
  call_Authorization : string
}.

Definition baseURL : string := "http://localhost:3000/v1".

(** ** Effects

    A method runs against the module state, the outside world the instance
    talks to, and a history of the calls handed to the instance.  The
    history is ghost state: the program never reads it. *)
Section Transport.

Variable World : Type.

(** What the instance does with a call before the response interceptors see
    the outcome: the promise of [dispatchRequest], already settled.  It may
    depend on, and change, the world; the module state is not in its
    reach. *)
Variable dispatch : AxiosCall -> World -> settled * World.

Record Machine : Type := mkMachine {
  module : State;
  world : World;
  sent : list AxiosCall
}.

Definition M (A : Type) : Type := Machine -> completion A * Machine.

Definition ret {A} (a : A) : M A := fun s => (Normal a, s).

Definition throw {A} (e : value) : M A := fun s => (Throw e, s).

Definition bind {A B} (c : M A) (k : A -> M B) : M B :=
  fun s =>
    match c s with
    | (Normal a, s') => k a s'
    | (Throw e, s') => (Throw e, s')
    end.

(** [try { body } catch (error) { handler }]: the handler starts in the state
    the body left behind. *)
Definition try_catch {A} (body : M A) (handler : value -> M A) : M A :=
  fun s =>
    match body s with
    | (Normal a, s') => (Normal a, s')
    | (Throw e, s') => handler e s'
    end.

Definition lift {A} (c : completion A) : M A := fun s => (c, s).

Definition get_module : M State := fun s => (Normal (module s), s).

Definition put_module (st : State) : M unit :=
  fun s => (Normal tt, mkMachine st (world s) (sent s)).

(** [await p] *)
Definition await (p : settled) : M value :=
  match p with
  | Fulfilled v => ret v
  | Rejected e => throw e
  end.

(** An [async] function settles its promise with the body's completion. *)
Definition async (body : M value) (s : Machine) : settled * Machine :=
  match body s with
  | (Normal v, s') => (Fulfilled v, s')
  | (Throw e, s') => (Rejected e, s')
  end.

Notation "x <- c ;; k" := (bind c (fun x => k))
  (at level 61, c at next level, right associativity).
Notation "c ;;; k" := (bind c (fun _ => k))
  (at level 61, right associativity).

Definition axios_call (method : Method) (url : string) (data : value)
    (st : State) : AxiosCall :=
  mkCall method url data baseURL (Authorization st).

(** [http[method](url, data)] for a call that reaches dispatch: the instance
    dispatches the call and chains the registered response interceptor on
    the outcome.  The result is the promise the caller awaits.  Calls that
    fail earlier are in [General.http]. *)
Definition http (method : Method) (url : string) (data : value) : M settled :=
  fun s =>
    let c := axios_call method url data (module s) in
    let (p, w) := dispatch c (world s) in
    (Normal (promise_then p interceptor_onFulfilled interceptor_onRejected),
     mkMachine (module s) w (sent s ++ [c])).

(** [HttpService.setAuthToken] *)
Definition setAuthToken (token : option string) : M unit :=
  st <- get_module ;;
  put_module (mkState token (Authorization st)) ;;;
  st <- get_module ;;
  put_module (mkState (authToken st) (bearer token)).

(** The [catch] block of [request] (lines 109-112). *)
Definition request_catch (error : value) : M value :=
  let status := opt_prop (opt_prop error "response") "status" in
  message <- lift (coalesce
                     (opt_prop (opt_prop (opt_prop error "response") "data") "message")
                     (get_prop error "message")) ;;
  let errorMessage := getErrorMessage status in
  ret (VObject [("data", VNull);
                ("error", failure_record message status errorMessage)]).

(** [HttpService.request] *)
Definition request (method : Method) (url : string) (data : value)
    : Machine -> settled * Machine :=
  async
    (try_catch
       (p <- http method url data ;;
        response <- await p ;;
        d <- lift (get_prop response "data") ;;
        ret (VObject [("data", d)]))
       request_catch).

(** The wrappers; an argument that is left out is [undefined]. *)
Definition get (url : string) := request GET url VUndefined.

Definition post (url : string) (data : value) := request POST url data.

Definition put (url : string) (data : value) := request PUT url data.

Definition patch (url : string) (data : value) := request PATCH url data.

Definition delete (url : string) := request DELETE url VUndefined.

(** A client of the module: a sequence of calls on [HttpService], each one
    run to completion before the next starts. *)
Inductive op : Type :=
| OpSetAuthToken (token : option string)
| OpRequest (method : Method) (url : string) (data : value).

Definition client_step (s : Machine) (o : op) : Machine :=
  match o with
  | OpSetAuthToken token => snd (setAuthToken token s)
  | OpRequest method url data => snd (request method url data s)
  end.

Definition client_run (ops : list op) (s : Machine) : Machine :=
  fold_left client_step ops s.

End Transport.

Arguments mkMachine {World} module world sent.
Arguments module {World} m.
Arguments world {World} m.
Arguments sent {World} m.
Arguments setAuthToken {World} token _.
Arguments request_catch {World} error _.
Arguments http {World} dispatch method url data _.
Arguments request {World} dispatch method url data _.
Arguments get {World} dispatch url _.
Arguments post {World} dispatch url data _.
Arguments put {World} dispatch url data _.
Arguments patch {World} dispatch url data _.
Arguments delete {World} dispatch url _.
Arguments client_step {World} dispatch s o.
Arguments client_run {World} dispatch ops s.

Definition request_op (r : Method * string * value) : op :=
  match r with
  | (method, url, data) => OpRequest method url data
  end.

(** The token the last [setAuthToken] of a client passed, if there is one. *)
Fixpoint last_token (ops : list op) (acc : option (option string))
    : option (option string) :=
  match ops with
  | [] => acc
  | OpSetAuthToken token :: rest => last_token rest (Some token)
  | OpRequest _ _ _ :: rest => last_token rest acc
  end.

(** ** The label table as the specification words it *)

Definition label_table : list (Z * string) :=
  [(400, "Bad Request"); (401, "Unauthorized"); (403, "Forbidden");
   (404, "Not Found"); (500, "Internal Server Error")]%Z.

Definition table_label (status : value) : string :=
  match status with
  | VNumber n =>
      match find (fun row => Z.eqb (fst row) n) label_table with
      | Some row => snd row
      | None => "Error"
      end
  | _ => "Error"
  end.

(** ** Envelopes *)

Definition envelope_data (envelope : value) : value := read_field envelope "data".

Definition envelope_error (envelope : value) : value := read_field envelope "error".

(** The reading of "exactly one of payload and failure record" that the
    specification gives: a payload and no [error] field, or a [null] payload
    and a failure record. *)
Definition exactly_one_populated (envelope : value) : Prop :=
  (envelope_data envelope <> VNull /\ has_own envelope "error" = false)
  \/ (envelope_data envelope = VNull /\ has_own envelope "error" = true).

(** The header the specification promises after [setAuthToken(token)]:
    "Bearer " + token for a token that is not null, empty for null. *)
Definition header_as_specified (token : option string) (st : State) : Prop :=
  match token with
  | Some t => Authorization st = "Bearer " ++ t
  | None => Authorization st = ""
  end.

(** What an error value carries for the two normalisation layers: the
    status of its response, and the server's message or else its own. *)
Definition error_status (e : value) : value :=
  opt_prop (opt_prop e "response") "status".

Definition error_message (e : value) : value :=
  let m := opt_prop (opt_prop (opt_prop e "response") "data") "message" in
  if nullish m then read_field e "message" else m.

(** The envelope [{ data: null, error: { message, status, errorMessage } }]. *)
Definition failure_envelope (message status : value) (errorMessage : string) : value :=
  VObject [("data", VNull); ("error", failure_record message status errorMessage)].

(** The header [setAuthToken] leaves behind, by cases on the token. *)
Definition header_for (token : option string) : string :=
  match token with
  | None => ""
  | Some "" => ""
  | Some t => "Bearer " ++ t
  end.

(** ** Mocked transports

    A transport that settles every call the same way and keeps no state. *)
Definition mock (outcome : settled) (c : AxiosCall) (w : unit) : settled * unit :=
  (outcome, w).

Definition start : Machine unit := mkMachine initial_state tt [].

(** The error axios rejects with when the server answers 404. *)
Definition error_404 : value :=
  VObject
    [("name", VString "AxiosError");
     ("message", VString "Request failed with status code 404");
     ("code", VString "ERR_BAD_REQUEST");
     ("response",
      VObject [("status", VNumber 404); ("statusText", VString "Not Found");
               ("data", VString "")])].

(** The error axios rejects with when no response arrives. *)
Definition error_network : value :=
  VObject
    [("name", VString "AxiosError");
     ("message", VString "Network Error");
     ("code", VString "ERR_NETWORK")].

Definition response_200 (payload : value) : value :=
  VObject [("data", payload); ("status", VNumber 200); ("statusText", VString "OK")].

(** ** Calls on the instance *)

Definition call_request (c : AxiosCall) : Method * string * value :=
  (call_method c, call_url c, call_data c).

(** The requests a client issues, in order. *)
Fixpoint requests_of (ops : list op) : list (Method * string * value) :=
  match ops with
  | [] => []
  | OpSetAuthToken _ :: rest => requests_of rest
  | OpRequest method url data :: rest => (method, url, data) :: requests_of rest
  end.

(** ** The navigation guard (src/router)

    [router.beforeEach(async (to, next) => { ... })].  The guard reads the
    target's [path] and the browser's [localStorage]; it writes nothing.  Its
    second parameter is not used. *)

Record RouteLocation : Type := mkRoute {
  path : string
}.

(** [localStorage], by what [getItem] answers: [None] is [null]. *)
Definition Storage : Type := string -> option string.

Definition getItem (storage : Storage) (key : string) : option string :=
  storage key.

(** [localStorage.setItem(key, item)] and [localStorage.removeItem(key)], as
    the Web Storage interface defines them. *)
Definition setItem (storage : Storage) (key item : string) : Storage :=
  fun k => if String.eqb k key then Some item else storage k.

Definition removeItem (storage : Storage) (key : string) : Storage :=
  fun k => if String.eqb k key then None else storage k.

Definition empty_storage : Storage := fun _ => None.

(** [array.includes(x)] on strings. *)
Definition includes (array : list string) (x : string) : bool :=
  existsb (fun y => String.eqb y x) array.

(** [v == null] for [v : string | null]. *)
Definition loosely_null (v : option string) : bool :=
  match v with
  | None => true
  | Some _ => false
  end.

Definition publicPages : list string := ["/login"].

(** The guard: the promise of the [async] arrow function, fulfilled with the
    string it returns or with [undefined] when it falls off the end. *)
Definition beforeEach_guard (to : RouteLocation) (localStorage : Storage) : settled :=
  let authRequired := negb (includes publicPages (path to)) in
  if (authRequired && loosely_null (getItem localStorage "token_user"))%bool
  then Fulfilled (VString "/login")
  else Fulfilled VUndefined.

(** ** Calls that fail before the interceptors

    [http[method](url, data)] runs code of the instance before there is a
    dispatch promise: it merges the configuration and copies the body.  An
    exception raised there (a body with an accessor that throws, say) leaves
    the call, or rejects its promise, with the thrown value as it is; the
    response interceptors are chained on the dispatch promise only and do not
    see it.  [Thrown] is such a call, [Dispatched] one that reached
    [dispatchRequest]. *)
Inductive instance_outcome : Type :=
| Thrown (e : value)
| Dispatched (p : settled).

Module General.

Section Instance.

Variable World : Type.

Variable instance : AxiosCall -> World -> instance_outcome * World.

(** [http[method](url, data)] *)
Definition http (method : Method) (url : string) (data : value)
    : M World settled :=
  fun s =>
    let c := axios_call method url data (module s) in
    match instance c (world s) with
    | (Thrown e, w) =>
        (Throw e, mkMachine (module s) w (sent s ++ [c]))
    | (Dispatched p, w) =>
        (Normal (promise_then p interceptor_onFulfilled interceptor_onRejected),
         mkMachine (module s) w (sent s ++ [c]))
    end.

(** [HttpService.request] *)
Definition request (method : Method) (url : string) (data : value)
    : Machine World -> settled * Machine World :=
  async World
    (try_catch World
       (bind World (http method url data) (fun p =>
        bind World (await World p) (fun response =>
        bind World (lift World (get_prop response "data")) (fun d =>
        ret World (VObject [("data", d)])))))
       request_catch).

Definition get (url : string) := request GET url VUndefined.

Definition post (url : string) (data : value) := request POST url data.

Definition put (url : string) (data : value) := request PUT url data.

Definition patch (url : string) (data : value) := request PATCH url data.

Definition delete (url : string) := request DELETE url VUndefined.

End Instance.

Arguments http {World} instance method url data _.
Arguments request {World} instance method url data _.
Arguments get {World} instance url _.
Arguments post {World} instance url data _.
Arguments put {World} instance url data _.
Arguments patch {World} instance url data _.
Arguments delete {World} instance url _.

End General.

(** An instance whose calls all reach dispatch. *)
Definition dispatching {World : Type}
    (dispatch : AxiosCall -> World -> settled * World)
    (c : AxiosCall) (w : World) : instance_outcome * World :=
  let (p, w') := dispatch c w in (Dispatched p, w').

(** An instance that ends every call the same way and keeps no state. *)
Definition mock_instance (outcome : instance_outcome) (c : AxiosCall) (w : unit)
    : instance_outcome * unit :=
  (outcome, w).

(** The two shapes of an envelope: [{ data }] and
    [{ data: null, error: { message, status, errorMessage } }], the label
    being the one of the status. *)
Definition is_envelope (v : value) : Prop :=
  (exists d, v = VObject [("data", d)])
  \/ (exists message status,
        v = failure_envelope message status (getErrorMessage status)).

(** * Properties *)

(** ** Concrete runs *)

Example getErrorMessage_404 : getErrorMessage (VNumber 404) = "Not Found".
Proof. reflexivity. Qed.

Example setAuthToken_abc :
  module (snd (setAuthToken (Some "abc") start)) = mkState (Some "abc") "Bearer abc".
Proof. reflexivity. Qed.

Example request_200 :
  fst (request (mock (Fulfilled (response_200 (VObject [("id", VNumber 1)]))))
         GET "/items/1" VUndefined start)
  = Fulfilled (VObject [("data", VObject [("id", VNumber 1)])]).
Proof. reflexivity. Qed.

Example interceptor_404 :
  promise_then (Rejected error_404) interceptor_onFulfilled interceptor_onRejected
  = Rejected (failure_record (VString "Request failed with status code 404")
                (VNumber 404) "Not Found").
Proof. reflexivity. Qed.

Example request_catch_404 :
  fst (request_catch error_404 start)
  = Normal (failure_envelope (VString "Request failed with status code 404")
              (VNumber 404) "Not Found").
Proof. reflexivity. Qed.

(** ** The two normalisation layers *)

Lemma nullish_cases (v : value) :
  nullish v = true -> v = VUndefined \/ v = VNull.
Proof. destruct v; simpl; intros H; try discriminate; auto. Qed.

Lemma opt_prop_object (v : value) (p : string) :
  nullish v = false -> opt_prop v p = read_field v p.
Proof. unfold opt_prop. intros ->. reflexivity. Qed.

Lemma interceptor_onRejected_object (e : value) :
  nullish e = false ->
  interceptor_onRejected e
  = Normal (RPromise (Rejected
      (failure_record (error_message e) (error_status e)
         (getErrorMessage (error_status e))))).
Proof.
  intros He. unfold interceptor_onRejected, error_message, error_status, get_prop.
  rewrite He. rewrite (opt_prop_object e "response" He).
  unfold coalesce.
  destruct (nullish (opt_prop (opt_prop (read_field e "response") "data") "message"));
    reflexivity.
Qed.

Lemma interceptor_onRejected_nullish (e : value) :
  nullish e = true ->
  interceptor_onRejected e = Throw (TypeError e "response").
Proof.
  intros He. unfold interceptor_onRejected, get_prop. rewrite He. reflexivity.
Qed.

Section Layers.

Context {World : Type}.
Implicit Type s : Machine World.

Lemma request_catch_object (e : value) s :
  nullish e = false ->
  request_catch e s
  = (Normal (failure_envelope (error_message e) (error_status e)
               (getErrorMessage (error_status e))), s).
Proof.
  intros He.
  unfold request_catch, error_message, error_status, bind, lift, ret, coalesce, get_prop.
  rewrite He.
  destruct (nullish (opt_prop (opt_prop (opt_prop e "response") "data") "message"));
    reflexivity.
Qed.

Lemma request_catch_nullish (e : value) s :
  nullish e = true ->
  request_catch e s = (Throw (TypeError e "message"), s).
Proof.
  intros He. destruct (nullish_cases e He) as [-> | ->]; reflexivity.
Qed.

(** The [catch] block on what the interceptor rejects with: the record has no
    [response], so the status it carries is not read. *)
Lemma request_catch_failure_record (message status : value) (label : string) s :
  request_catch (failure_record message status label) s
  = (Normal (failure_envelope message VUndefined "Error"), s).
Proof. reflexivity. Qed.

Lemma request_catch_TypeError (v : value) (p : string) s :
  request_catch (TypeError v p) s
  = (Normal (failure_envelope (read_field (TypeError v p) "message")
               VUndefined "Error"), s).
Proof. reflexivity. Qed.

End Layers.

(** ** One request, end to end *)

Section Request.

Context {World : Type}.
Variable dispatch : AxiosCall -> World -> settled * World.
Implicit Type s : Machine World.

Ltac step_request H :=
  unfold request, async, try_catch, bind, http, await, ret, throw, lift;
  cbv zeta; rewrite H.

(** The transport failed: the interceptor normalises the error first, and the
    [catch] block then sees the normalised record (or the [TypeError] the
    interceptor raised), never the transport's own error. *)
Lemma request_rejected method url data s e w :
  dispatch (axios_call method url data (module s)) (world s) = (Rejected e, w) ->
  request dispatch method url data s
  = (Fulfilled
       (failure_envelope
          (if nullish e then read_field (TypeError e "response") "message"
           else error_message e)
          VUndefined "Error"),
     mkMachine (module s) w (sent s ++ [axios_call method url data (module s)])).
Proof.
  intros H. step_request H. unfold promise_then.
  destruct (nullish e) eqn:He.
  - rewrite (interceptor_onRejected_nullish e He).
    destruct (nullish_cases e He) as [-> | ->]; reflexivity.
  - rewrite (interceptor_onRejected_object e He). reflexivity.
Qed.

(** The transport answered: the envelope holds the response's [data], unless
    there is no response object to read it from. *)
Lemma request_fulfilled method url data s r w :
  dispatch (axios_call method url data (module s)) (world s) = (Fulfilled r, w) ->
  request dispatch method url data s
  = (Fulfilled
       (if nullish r
        then failure_envelope (read_field (TypeError r "data") "message")
               VUndefined "Error"
        else VObject [("data", read_field r "data")]),
     mkMachine (module s) w (sent s ++ [axios_call method url data (module s)])).
Proof.
  intros H. step_request H. unfold promise_then, interceptor_onFulfilled, get_prop.
  destruct (nullish r) eqn:Hr.
  - destruct (nullish_cases r Hr) as [-> | ->]; reflexivity.
  - reflexivity.
Qed.

Lemma request_settles method url data s :
  exists envelope w,
    request dispatch method url data s
    = (Fulfilled envelope,
       mkMachine (module s) w (sent s ++ [axios_call method url data (module s)])).
Proof.
  destruct (dispatch (axios_call method url data (module s)) (world s))
    as [[r | e] w] eqn:H.
  - rewrite (request_fulfilled _ _ _ _ _ _ H). eauto.
  - rewrite (request_rejected _ _ _ _ _ _ H). eauto.
Qed.

End Request.

(** ** Clients *)

Lemma bearer_header_for (token : option string) : bearer token = header_for token.
Proof. destruct token as [[| a t] |]; reflexivity. Qed.

Lemma setAuthToken_run {World : Type} (token : option string) (s : Machine World) :
  setAuthToken token s
  = (Normal tt, mkMachine (mkState token (header_for token)) (world s) (sent s)).
Proof.
  unfold setAuthToken, bind, get_module, put_module. cbn.
  rewrite bearer_header_for. reflexivity.
Qed.

Lemma last_token_set (ops : list op) :
  forall token, last_token ops (Some token) <> None.
Proof.
  induction ops as [| [token' | method url data] ops IH]; intros token; cbn.
  - discriminate.
  - apply IH.
  - apply IH.
Qed.

Section Clients.

Context {World : Type}.
Variable dispatch : AxiosCall -> World -> settled * World.
Implicit Type s : Machine World.

Lemma request_module method url data s :
  module (snd (request dispatch method url data s)) = module s.
Proof.
  destruct (request_settles dispatch method url data s) as (envelope & w & ->).
  reflexivity.
Qed.

Lemma request_sent method url data s :
  sent (snd (request dispatch method url data s))
  = (sent s ++ [axios_call method url data (module s)])%list.
Proof.
  destruct (request_settles dispatch method url data s) as (envelope & w & ->).
  reflexivity.
Qed.

(** A client that only issues requests: the state stays, and every call it
    hands to the instance carries the header that was in force at the start. *)
Lemma client_run_requests (reqs : list (Method * string * value)) :
  forall s,
    module (client_run dispatch (map request_op reqs) s) = module s /\
    exists calls,
      sent (client_run dispatch (map request_op reqs) s) = (sent s ++ calls)%list /\
      length calls = length reqs /\
      Forall (fun c => call_Authorization c = Authorization (module s)) calls.
Proof.
  induction reqs as [| [[method url] data] reqs IH]; intros s.
  - split; [reflexivity |]. exists []. rewrite app_nil_r. auto.
  - cbn [map request_op client_run fold_left client_step].
    destruct (IH (snd (request dispatch method url data s)))
      as (Hm & calls & Hs & Hl & Hf).
    fold (client_run dispatch (map request_op reqs)
            (snd (request dispatch method url data s))).
    rewrite request_module in Hm, Hf. rewrite request_sent in Hs.
    split; [exact Hm |].
    exists (axios_call method url data (module s) :: calls).
    split; [| split].
    + rewrite Hs, <- app_assoc. reflexivity.
    + cbn. rewrite Hl. reflexivity.
    + constructor; [reflexivity | exact Hf].
Qed.

Lemma client_run_module (ops : list op) :
  forall s acc,
    match acc with
    | Some token => module s = mkState token (header_for token)
    | None => True
    end ->
    module (client_run dispatch ops s)
    = match last_token ops acc with
      | Some token => mkState token (header_for token)
      | None => module s
      end.
Proof.
  induction ops as [| o ops IH]; intros s acc Hacc.
  - cbn. destruct acc; [exact Hacc | reflexivity].
  - cbn [client_run fold_left last_token].
    fold (client_run dispatch ops (client_step dispatch s o)).
    destruct o as [token | method url data]; cbn [client_step].
    + rewrite (IH _ (Some token)).
      * destruct (last_token ops (Some token)) eqn:E; [reflexivity |].
        exfalso. exact (last_token_set ops token E).
      * rewrite setAuthToken_run. reflexivity.
    + rewrite (IH _ acc).
      * rewrite request_module. reflexivity.
      * rewrite request_module. exact Hacc.
Qed.

End Clients.

(** ** The label table *)

Lemma getErrorMessage_table_label (status : value) :
  getErrorMessage status = table_label status.
Proof.
  destruct status as [| | b | n | t | fields]; try reflexivity.
  destruct n as [| p | p]; try reflexivity.
  do 10 (try (destruct p as [p | p |]; try reflexivity)).
Qed.

(** C5: [getErrorMessage] is total and realises the fixed table: 400, 401,
    403, 404 and 500 get their labels, and every other input (an unknown code
    such as 418, an absent status, a value that is not a number) gets
    "Error".  The function agrees with the table as the specification lists
    it, and its result is always one of the six labels. *)
Theorem getErrorMessage_total_table :
  getErrorMessage (VNumber 400) = "Bad Request" /\
  getErrorMessage (VNumber 401) = "Unauthorized" /\
  getErrorMessage (VNumber 403) = "Forbidden" /\
  getErrorMessage (VNumber 404) = "Not Found" /\
  getErrorMessage (VNumber 500) = "Internal Server Error" /\
  getErrorMessage (VNumber 418) = "Error" /\
  getErrorMessage VUndefined = "Error" /\
  (forall status, getErrorMessage status = table_label status) /\
  (forall status,
      getErrorMessage status = "Error" \/
      exists n, status = VNumber n /\ In (n, getErrorMessage status) label_table).
Proof.
  repeat (split; [reflexivity |]).
  split; [exact getErrorMessage_table_label |].
  intros status. rewrite getErrorMessage_table_label.
  destruct status as [| | b | n | t | fields]; try (left; reflexivity).
  unfold table_label.
  destruct (find (fun row => Z.eqb (fst row) n) label_table) as [row |] eqn:E.
  - right. exists n. split; [reflexivity |].
    destruct (find_some _ _ E) as [Hin Heq].
    apply Z.eqb_eq in Heq. destruct row as [k label]. cbn in Heq. subst k.
    exact Hin.
  - left. reflexivity.
Qed.

(** ** The facade *)

Section Facade.

Context {World : Type}.
Variable dispatch : AxiosCall -> World -> settled * World.
Implicit Type s : Machine World.

(** C1 (what the code does where the claim expects 404 and "Not Found"):
    when the transport rejects with an error whose response has status 404,
    [request] resolves with [data] null, but the failure record has status
    [undefined] and errorMessage "Error".  The interceptor has already turned
    the error into [{ message, status: 404, errorMessage: "Not Found" }],
    which has no [response] for the [catch] block to read the status from. *)
Theorem request_404_status_lost method url data s e w :
  dispatch (axios_call method url data (module s)) (world s) = (Rejected e, w) ->
  nullish e = false ->
  error_status e = VNumber 404 ->
  fst (request dispatch method url data s)
  = Fulfilled (failure_envelope (error_message e) VUndefined "Error")
  /\ promise_then (Rejected e) interceptor_onFulfilled interceptor_onRejected
     = Rejected (failure_record (error_message e) (VNumber 404) "Not Found")
  /\ fst (request_catch e s)
     = Normal (failure_envelope (error_message e) (VNumber 404) "Not Found").
Proof.
  intros H He Hs. split; [| split].
  - rewrite (request_rejected dispatch _ _ _ _ _ _ H), He. reflexivity.
  - unfold promise_then. rewrite (interceptor_onRejected_object e He), Hs.
    reflexivity.
  - rewrite (request_catch_object e s He), Hs. reflexivity.
Qed.

(** C2 (amended): every envelope [request] resolves with has a [data] field;
    it has a failure record exactly when the call gave no response to read,
    and then [data] is null; otherwise the [error] field is absent and
    [data] is the response's payload, whatever it is.  A payload other than
    null and a failure record never come together. *)
Theorem request_envelope_shape method url data s :
  exists envelope,
    fst (request dispatch method url data s) = Fulfilled envelope /\
    has_own envelope "data" = true /\
    (has_own envelope "error" = false \/ envelope_data envelope = VNull) /\
    match fst (dispatch (axios_call method url data (module s)) (world s)) with
    | Rejected _ =>
        has_own envelope "error" = true /\ envelope_data envelope = VNull
    | Fulfilled response =>
        has_own envelope "error" = nullish response /\
        envelope_data envelope
        = (if nullish response then VNull else read_field response "data")
    end.
Proof.
  destruct (dispatch (axios_call method url data (module s)) (world s))
    as [[r | e] w] eqn:H.
  - rewrite (request_fulfilled dispatch _ _ _ _ _ _ H).
    cbn [fst]. destruct (nullish r) eqn:Hr.
    + eexists. split; [reflexivity |]. cbn. auto.
    + eexists. split; [reflexivity |]. cbn. auto.
  - rewrite (request_rejected dispatch _ _ _ _ _ _ H).
    eexists; cbn; repeat split; auto.
Qed.

(** C4 (amended): [setAuthToken(t)] completes normally, stores [t] as the
    token and sets the default header to "Bearer " + t when [t] is a
    non-empty string, and to the empty string when [t] is null or the empty
    string; every request issued afterwards, until the next [setAuthToken],
    is handed to the instance with that header. *)
Theorem setAuthToken_header (token : option string) s
    (reqs : list (Method * string * value)) :
  fst (setAuthToken token s) = Normal tt /\
  authToken (module (snd (setAuthToken token s))) = token /\
  Authorization (module (snd (setAuthToken token s)))
  = match token with
    | None => ""
    | Some t => if String.eqb t "" then "" else "Bearer " ++ t
    end /\
  exists calls,
    sent (client_run dispatch (OpSetAuthToken token :: map request_op reqs) s)
    = (sent s ++ calls)%list /\
    length calls = length reqs /\
    Forall (fun c => call_Authorization c
                     = match token with
                       | None => ""
                       | Some t => if String.eqb t "" then "" else "Bearer " ++ t
                       end) calls.
Proof.
  assert (Hh : header_for token
               = match token with
                 | None => ""
                 | Some t => if String.eqb t "" then "" else "Bearer " ++ t
                 end)
    by (destruct token as [[| a t] |]; reflexivity).
  rewrite <- Hh. rewrite setAuthToken_run. cbn [fst snd module authToken Authorization].
  repeat split.
  destruct (client_run_requests dispatch reqs
              (mkMachine (mkState token (header_for token)) (world s) (sent s)))
    as (_ & calls & Hs & Hl & Hf).
  exists calls. cbn [client_run fold_left client_step].
  rewrite setAuthToken_run. cbn [snd].
  fold (client_run dispatch (map request_op reqs)
          (mkMachine (mkState token (header_for token)) (world s) (sent s))).
  repeat split; assumption.
Qed.

(** C6: each wrapper gives what [request] gives with the wrapper's method
    and the same arguments, envelope and state alike. *)
Theorem wrappers_are_request url data s :
  get dispatch url s = request dispatch GET url VUndefined s /\
  post dispatch url data s = request dispatch POST url data s /\
  put dispatch url data s = request dispatch PUT url data s /\
  patch dispatch url data s = request dispatch PATCH url data s /\
  delete dispatch url s = request dispatch DELETE url VUndefined s.
Proof. repeat split; reflexivity. Qed.

(** C7: when the transport rejects with an error that has no response,
    [request] resolves with [data] null and a failure record whose status is
    [undefined] and whose errorMessage is "Error"; the message is the
    error's own. *)
Theorem request_network_failure method url data s e w :
  dispatch (axios_call method url data (module s)) (world s) = (Rejected e, w) ->
  nullish e = false ->
  nullish (read_field e "response") = true ->
  exists envelope,
    fst (request dispatch method url data s) = Fulfilled envelope /\
    envelope_data envelope = VNull /\
    has_own envelope "error" = true /\
    read_field (envelope_error envelope) "status" = VUndefined /\
    read_field (envelope_error envelope) "errorMessage" = VString "Error" /\
    read_field (envelope_error envelope) "message" = read_field e "message".
Proof.
  intros H He Hr.
  rewrite (request_rejected dispatch _ _ _ _ _ _ H), He.
  eexists. split; [reflexivity |]. cbn.
  repeat split.
  unfold error_message. rewrite (opt_prop_object e "response" He).
  destruct (nullish_cases _ Hr) as [-> | ->]; reflexivity.
Qed.

(** C8: when the transport answers with a response whose decoded payload is
    [p], [request] resolves with exactly [{ data: p }]: there is no [error]
    field. *)
Theorem request_success_envelope method url data s response w p :
  dispatch (axios_call method url data (module s)) (world s)
  = (Fulfilled response, w) ->
  nullish response = false ->
  read_field response "data" = p ->
  fst (request dispatch method url data s) = Fulfilled (VObject [("data", p)]) /\
  has_own (VObject [("data", p)]) "error" = false.
Proof.
  intros H Hr Hp.
  rewrite (request_fulfilled dispatch _ _ _ _ _ _ H), Hr, Hp.
  split; reflexivity.
Qed.

(** Handed one and the same value, the interceptor and the [catch] block
    build the same record, and both throw only when the value is
    [undefined] or [null].  In [request] the two are not handed the same
    value: the block gets what the interceptor made of it. *)
Lemma interceptor_agrees_with_catch (e : value) s :
  match interceptor_onRejected e, fst (request_catch e s) with
  | Normal (RPromise (Rejected record)), Normal envelope =>
      envelope = VObject [("data", VNull); ("error", record)] /\
      record = failure_record (error_message e) (error_status e)
                 (getErrorMessage (error_status e)) /\
      nullish e = false
  | Throw _, Throw _ => nullish e = true
  | _, _ => False
  end.
Proof.
  destruct (nullish e) eqn:He.
  - rewrite (interceptor_onRejected_nullish e He), (request_catch_nullish e s He).
    reflexivity.
  - rewrite (interceptor_onRejected_object e He), (request_catch_object e s He).
    cbn. repeat split.
Qed.

(** C10: [request] and the wrappers leave the token and the default
    [Authorization] header as they found them, whatever the transport does;
    after any sequence of calls the two are what the last [setAuthToken] of
    the sequence made them, or untouched when there was none. *)
Theorem request_preserves_auth_state method url data s (ops : list op) :
  module (snd (request dispatch method url data s)) = module s /\
  module (snd (get dispatch url s)) = module s /\
  module (snd (post dispatch url data s)) = module s /\
  module (snd (put dispatch url data s)) = module s /\
  module (snd (patch dispatch url data s)) = module s /\
  module (snd (delete dispatch url s)) = module s /\
  module (client_run dispatch ops s)
  = match last_token ops None with
    | Some token =>
        mkState token
          match token with
          | None => ""
          | Some t => if String.eqb t "" then "" else "Bearer " ++ t
          end
    | None => module s
    end.
Proof.
  unfold get, post, put, patch, delete.
  repeat (split; [apply request_module |]).
  rewrite (client_run_module dispatch ops s None I).
  destruct (last_token ops None) as [[[| a t] |] |]; reflexivity.
Qed.

End Facade.

(** ** Runs against mocked transports *)

Lemma request_404_status_lost_run :
  (mock (Rejected error_404) (axios_call GET "/items/1" VUndefined (module start))
     (world start) = (Rejected error_404, tt)
   /\ nullish error_404 = false
   /\ error_status error_404 = VNumber 404)
  /\ (fst (request (mock (Rejected error_404)) GET "/items/1" VUndefined start)
      = Fulfilled
          (failure_envelope (VString "Request failed with status code 404")
             VUndefined "Error")
      /\ promise_then (Rejected error_404) interceptor_onFulfilled
           interceptor_onRejected
         = Rejected
             (failure_record (VString "Request failed with status code 404")
                (VNumber 404) "Not Found")
      /\ fst (request_catch error_404 start)
         = Normal
             (failure_envelope (VString "Request failed with status code 404")
                (VNumber 404) "Not Found")).
Proof.
  split.
  - repeat split.
  - apply (request_404_status_lost (mock (Rejected error_404))
             GET "/items/1" VUndefined start error_404 tt); reflexivity.
Defined.

(** A 200 whose body is the JSON value null: the envelope has neither a
    payload nor a failure record. *)
Lemma request_null_payload_neither :
  fst (request (mock (Fulfilled (response_200 VNull))) GET "/items/1" VUndefined start)
  = Fulfilled (VObject [("data", VNull)])
  /\ ~ exactly_one_populated (VObject [("data", VNull)]).
Proof.
  split; [reflexivity |].
  intros [[Hd _] | [_ He]].
  - apply Hd. reflexivity.
  - discriminate He.
Qed.

(** The empty string is a token that is not null, and the header it leaves
    is empty, not "Bearer ". *)
Lemma setAuthToken_empty_string :
  Authorization (module (snd (setAuthToken (Some "") start))) = ""
  /\ ~ header_as_specified (Some "") (module (snd (setAuthToken (Some "") start))).
Proof.
  split; [reflexivity |]. cbn. discriminate.
Qed.

Lemma request_network_failure_run :
  (mock (Rejected error_network) (axios_call POST "/items" VNull (module start))
     (world start) = (Rejected error_network, tt)
   /\ nullish error_network = false
   /\ nullish (read_field error_network "response") = true)
  /\ exists envelope,
      fst (request (mock (Rejected error_network)) POST "/items" VNull start)
      = Fulfilled envelope /\
      envelope_data envelope = VNull /\
      has_own envelope "error" = true /\
      read_field (envelope_error envelope) "status" = VUndefined /\
      read_field (envelope_error envelope) "errorMessage" = VString "Error" /\
      read_field (envelope_error envelope) "message" = VString "Network Error".
Proof.
  split.
  - repeat split.
  - apply (request_network_failure (mock (Rejected error_network))
             POST "/items" VNull start error_network tt); reflexivity.
Defined.

Lemma request_success_envelope_run :
  (mock (Fulfilled (response_200 (VObject [("id", VNumber 1)])))
     (axios_call GET "/items/1" VUndefined (module start)) (world start)
   = (Fulfilled (response_200 (VObject [("id", VNumber 1)])), tt)
   /\ nullish (response_200 (VObject [("id", VNumber 1)])) = false
   /\ read_field (response_200 (VObject [("id", VNumber 1)])) "data"
      = VObject [("id", VNumber 1)])
  /\ (fst (request (mock (Fulfilled (response_200 (VObject [("id", VNumber 1)]))))
            GET "/items/1" VUndefined start)
      = Fulfilled (VObject [("data", VObject [("id", VNumber 1)])])
      /\ has_own (VObject [("data", VObject [("id", VNumber 1)])]) "error" = false).
Proof.
  split.
  - repeat split.
  - apply (request_success_envelope
             (mock (Fulfilled (response_200 (VObject [("id", VNumber 1)]))))
             GET "/items/1" VUndefined start
             (response_200 (VObject [("id", VNumber 1)])) tt
             (VObject [("id", VNumber 1)])); reflexivity.
Defined.

(** ** Further properties of the two normalisation layers *)

(** X2: the interceptor hands a response on untouched and never turns a failure
    into a success: whatever the transport rejects with, the instance's
    promise rejects, with an object that has a [message] and no [response]. *)
Theorem interceptor_keeps_outcome :
  (forall response,
      promise_then (Fulfilled response) interceptor_onFulfilled interceptor_onRejected
      = Fulfilled response) /\
  (forall e, exists reason,
      promise_then (Rejected e) interceptor_onFulfilled interceptor_onRejected
      = Rejected reason /\
      nullish reason = false /\
      has_own reason "message" = true /\
      has_own reason "response" = false).
Proof.
  split; [reflexivity |].
  intros e. unfold promise_then. destruct (nullish e) eqn:He.
  - rewrite (interceptor_onRejected_nullish e He).
    eexists. split; [reflexivity |]. repeat split.
  - rewrite (interceptor_onRejected_object e He).
    eexists. split; [reflexivity |]. repeat split.
Qed.

(** X3: a message the server put in the response body wins over the error's own
    message whenever it is there, the empty string included; the status and
    its label are those of the response. *)
Theorem server_message_takes_precedence (e : value) (m : string) :
  read_field (read_field (read_field e "response") "data") "message" = VString m ->
  promise_then (Rejected e) interceptor_onFulfilled interceptor_onRejected
  = Rejected
      (failure_record (VString m) (read_field (read_field e "response") "status")
         (getErrorMessage (read_field (read_field e "response") "status"))).
Proof.
  intros Hm.
  assert (He : nullish e = false) by (destruct e; try discriminate Hm; reflexivity).
  assert (Hr : nullish (read_field e "response") = false)
    by (destruct (read_field e "response"); try discriminate Hm; reflexivity).
  assert (Hd : nullish (read_field (read_field e "response") "data") = false)
    by (destruct (read_field (read_field e "response") "data");
        try discriminate Hm; reflexivity).
  unfold promise_then. rewrite (interceptor_onRejected_object e He).
  unfold error_message, error_status.
  rewrite (opt_prop_object e "response" He).
  rewrite (opt_prop_object _ "data" Hr), (opt_prop_object _ "message" Hd).
  rewrite (opt_prop_object _ "status" Hr), Hm. reflexivity.
Qed.

(** X4: without a message in the response body the record carries the error's
    own message. *)
Theorem own_message_is_the_fallback (e : value) :
  nullish e = false ->
  nullish (opt_prop (opt_prop (read_field e "response") "data") "message") = true ->
  promise_then (Rejected e) interceptor_onFulfilled interceptor_onRejected
  = Rejected
      (failure_record (read_field e "message")
         (opt_prop (read_field e "response") "status")
         (getErrorMessage (opt_prop (read_field e "response") "status"))).
Proof.
  intros He Hm. unfold promise_then. rewrite (interceptor_onRejected_object e He).
  unfold error_message, error_status.
  rewrite (opt_prop_object e "response" He), Hm. reflexivity.
Qed.

(** X5: normalising a record that is already normalised keeps its message and
    forgets its status: the result has status [undefined] and the label
    "Error", in the interceptor and in the [catch] block alike, and
    normalising once more changes nothing. *)
Theorem normalising_twice_drops_status (message status : value) (label : string) :
  interceptor_onRejected (failure_record message status label)
  = Normal (RPromise (Rejected (failure_record message VUndefined "Error"))) /\
  interceptor_onRejected (failure_record message VUndefined "Error")
  = Normal (RPromise (Rejected (failure_record message VUndefined "Error"))) /\
  forall (World : Type) (s : Machine World),
    request_catch (failure_record message status label) s
    = (Normal (failure_envelope message VUndefined "Error"), s).
Proof. repeat split. Qed.

(** X6: the labels tell the five known codes apart: two statuses with the same
    label other than "Error" are the same status. *)
Theorem label_identifies_status (a b : Z) :
  getErrorMessage (VNumber a) = getErrorMessage (VNumber b) ->
  getErrorMessage (VNumber a) <> "Error" ->
  a = b.
Proof.
  assert (known : forall n, getErrorMessage (VNumber n) <> "Error" ->
                            In n [400; 401; 403; 404; 500]%Z).
  { intros n Hn. rewrite getErrorMessage_table_label in Hn. unfold table_label in Hn.
    destruct (find (fun row => Z.eqb (fst row) n) label_table) as [row |] eqn:E;
      [| contradiction Hn; reflexivity].
    destruct (find_some _ _ E) as [Hin Heq]. apply Z.eqb_eq in Heq. subst n.
    cbn in Hin.
    repeat (destruct Hin as [<- | Hin]; [cbn; auto 6 |]). contradiction. }
  intros Hab Ha.
  assert (Hb : getErrorMessage (VNumber b) <> "Error") by (rewrite <- Hab; exact Ha).
  apply known in Ha. apply known in Hb.
  cbn in Ha, Hb.
  repeat (destruct Ha as [<- | Ha]);
    repeat (destruct Hb as [<- | Hb]);
    try reflexivity; try contradiction; discriminate Hab.
Qed.

(** ** Further properties of the facade *)

Section FacadeMore.

Context {World : Type}.
Variable dispatch : AxiosCall -> World -> settled * World.
Implicit Type s : Machine World.

(** X1: whatever the transport rejects with, the envelope of [request] reports
    status [undefined] and the label "Error"; of what the instance's promise
    rejects with, only the message reaches the caller. *)
Theorem request_failure_keeps_only_message method url data s e w :
  dispatch (axios_call method url data (module s)) (world s) = (Rejected e, w) ->
  exists reason,
    fst (http dispatch method url data s) = Normal (Rejected reason) /\
    fst (request dispatch method url data s)
    = Fulfilled (failure_envelope (read_field reason "message") VUndefined "Error").
Proof.
  intros H. rewrite (request_rejected dispatch _ _ _ _ _ _ H).
  unfold http. cbv zeta. rewrite H. unfold promise_then. cbn [fst].
  destruct (nullish e) eqn:He.
  - rewrite (interceptor_onRejected_nullish e He). eexists. split; reflexivity.
  - rewrite (interceptor_onRejected_object e He). eexists. split; reflexivity.
Qed.

(** X7: starting from the state the module is loaded with, after any sequence of
    calls the default header is the one that belongs to the stored token:
    empty for no token or an empty one, "Bearer " + token otherwise. *)
Theorem header_follows_token (w : World) (ops : list op) :
  let st := module (client_run dispatch ops (mkMachine initial_state w [])) in
  Authorization st
  = match authToken st with
    | None => ""
    | Some t => if String.eqb t "" then "" else "Bearer " ++ t
    end.
Proof.
  cbv zeta.
  rewrite (client_run_module dispatch ops (mkMachine initial_state w []) None I).
  destruct (last_token ops None) as [[[| a t] |] |]; reflexivity.
Qed.

(** X8: [setAuthToken] hands nothing to the instance and overwrites what an
    earlier call stored; with [null] it brings back the state the module was
    loaded with. *)
Theorem setAuthToken_overwrites (token earlier : option string) s :
  world (snd (setAuthToken token s)) = world s /\
  sent (snd (setAuthToken token s)) = sent s /\
  setAuthToken token (snd (setAuthToken earlier s)) = setAuthToken token s /\
  module (snd (setAuthToken None s)) = initial_state.
Proof.
  repeat (rewrite setAuthToken_run; cbn [snd world sent module]).
  repeat split.
Qed.

(** X9: every request of a client reaches the instance exactly once, in the order
    issued and with the method, url and data given, against the fixed base
    URL: nothing is retried, dropped or reordered, whatever the outcomes. *)
Theorem client_run_sends_each_request_once (ops : list op) :
  forall s, exists calls,
    sent (client_run dispatch ops s) = (sent s ++ calls)%list /\
    map call_request calls = requests_of ops /\
    Forall (fun c => call_baseURL c = "http://localhost:3000/v1") calls.
Proof.
  induction ops as [| o ops IH]; intros s.
  - exists []. rewrite app_nil_r. repeat split. constructor.
  - cbn [client_run fold_left].
    fold (client_run dispatch ops (client_step dispatch s o)).
    destruct (IH (client_step dispatch s o)) as (calls & Hs & Hm & Hf).
    destruct o as [token | method url data]; cbn [client_step] in *.
    + exists calls. rewrite Hs, setAuthToken_run. repeat split; assumption.
    + exists (axios_call method url data (module s) :: calls).
      rewrite Hs, request_sent, <- app_assoc. split; [reflexivity |].
      split; [cbn; rewrite Hm; reflexivity |].
      constructor; [reflexivity | exact Hf].
Qed.

(** X10: what each wrapper hands to the instance: one call with the wrapper's
    method, the url and the header in force; [get] and [delete] pass
    [undefined] as second argument, the others their body. *)
Theorem wrapper_calls url data s :
  sent (snd (get dispatch url s))
  = (sent s ++ [mkCall GET url VUndefined baseURL (Authorization (module s))])%list /\
  sent (snd (post dispatch url data s))
  = (sent s ++ [mkCall POST url data baseURL (Authorization (module s))])%list /\
  sent (snd (put dispatch url data s))
  = (sent s ++ [mkCall PUT url data baseURL (Authorization (module s))])%list /\
  sent (snd (patch dispatch url data s))
  = (sent s ++ [mkCall PATCH url data baseURL (Authorization (module s))])%list /\
  sent (snd (delete dispatch url s))
  = (sent s ++ [mkCall DELETE url VUndefined baseURL (Authorization (module s))])%list.
Proof.
  unfold get, post, put, patch, delete.
  rewrite !request_sent. repeat split.
Qed.

End FacadeMore.

(** ** The navigation guard *)

Lemma guard_cases (to : RouteLocation) (storage : Storage) :
  beforeEach_guard to storage = Fulfilled (VString "/login")
  \/ beforeEach_guard to storage = Fulfilled VUndefined.
Proof.
  unfold beforeEach_guard.
  destruct (negb (includes publicPages (path to))
            && loosely_null (getItem storage "token_user"))%bool; auto.
Qed.

(** X11: the guard sends a navigation to "/login" exactly when the target is not
    "/login" and [localStorage] has no "token_user" entry; in every other
    case, a stored empty string included, it returns nothing.  Those are its
    only two results. *)
Theorem guard_redirects_iff (to : RouteLocation) (storage : Storage) :
  (beforeEach_guard to storage = Fulfilled (VString "/login")
   <-> path to <> "/login" /\ getItem storage "token_user" = None) /\
  (beforeEach_guard to storage = Fulfilled VUndefined
   <-> path to = "/login" \/ exists t, getItem storage "token_user" = Some t) /\
  (beforeEach_guard to storage = Fulfilled (VString "/login")
   \/ beforeEach_guard to storage = Fulfilled VUndefined).
Proof.
  unfold beforeEach_guard, publicPages, includes. cbn [existsb].
  destruct (String.eqb_spec "/login" (path to)) as [Hp | Hp];
    destruct (getItem storage "token_user") as [t |]; cbn.
  - split; [| split; [| right; reflexivity]].
    + split; [discriminate | intros [_ H]; discriminate H].
    + split; [intros _; left; symmetry; exact Hp | reflexivity].
  - split; [| split; [| right; reflexivity]].
    + split; [discriminate | intros [H _]; contradiction H; symmetry; exact Hp].
    + split; [intros _; left; symmetry; exact Hp | reflexivity].
  - split; [| split; [| right; reflexivity]].
    + split; [discriminate | intros [_ H]; discriminate H].
    + split; [intros _; right; exists t; reflexivity | reflexivity].
  - split; [| split; [| left; reflexivity]].
    + split; [intros _; split; [intros E; apply Hp; symmetry; exact E | reflexivity]
             | reflexivity].
    + split; [discriminate |].
      intros [H | [t H]]; [contradiction Hp; symmetry; exact H | discriminate H].
Qed.

(** X12: a target the guard redirects to is let through by the guard: a
    redirect is never answered with another redirect. *)
Theorem guard_lets_its_redirect_through (to : RouteLocation) (storage : Storage)
    (target : string) :
  beforeEach_guard to storage = Fulfilled (VString target) ->
  beforeEach_guard (mkRoute target) storage = Fulfilled VUndefined.
Proof.
  destruct (guard_cases to storage) as [H | H]; rewrite H; intros E.
  - injection E as <-. reflexivity.
  - discriminate E.
Qed.

(** X13: once any string is stored under "token_user", the empty one
    included, the guard lets every target through; once the entry is
    removed, it answers "/login" for every target but "/login". *)
Theorem guard_after_setItem_removeItem (to : RouteLocation) (storage : Storage)
    (item : string) :
  beforeEach_guard to (setItem storage "token_user" item) = Fulfilled VUndefined /\
  beforeEach_guard to (removeItem storage "token_user")
  = (if String.eqb (path to) "/login"
     then Fulfilled VUndefined
     else Fulfilled (VString "/login")).
Proof.
  unfold beforeEach_guard, getItem, setItem, removeItem, publicPages, includes.
  rewrite String.eqb_refl. cbn [existsb loosely_null].
  rewrite (String.eqb_sym "/login" (path to)).
  destruct (String.eqb (path to) "/login"); split; reflexivity.
Qed.

(** X14: the guard looks at no entry of [localStorage] but "token_user". *)
Theorem guard_ignores_other_keys (key item : string) (to : RouteLocation)
    (storage : Storage) :
  key <> "token_user" ->
  beforeEach_guard to (setItem storage key item) = beforeEach_guard to storage /\
  beforeEach_guard to (removeItem storage key) = beforeEach_guard to storage.
Proof.
  intros Hk. unfold beforeEach_guard, getItem, setItem, removeItem.
  destruct (String.eqb_spec "token_user" key) as [E | _];
    [contradiction Hk; symmetry; exact E |].
  split; reflexivity.
Qed.

(** ** Further runs *)

Lemma server_message_takes_precedence_run :
  read_field
    (read_field
       (read_field
          (VObject
             [("message", VString "Request failed with status code 400");
              ("response",
               VObject [("status", VNumber 400);
                        ("data", VObject [("message", VString "")])])])
          "response") "data") "message" = VString ""
  /\ promise_then
       (Rejected
          (VObject
             [("message", VString "Request failed with status code 400");
              ("response",
               VObject [("status", VNumber 400);
                        ("data", VObject [("message", VString "")])])]))
       interceptor_onFulfilled interceptor_onRejected
     = Rejected (failure_record (VString "") (VNumber 400) "Bad Request").
Proof.
  split; [reflexivity |].
  apply (server_message_takes_precedence
           (VObject
              [("message", VString "Request failed with status code 400");
               ("response",
                VObject [("status", VNumber 400);
                         ("data", VObject [("message", VString "")])])]) "").
  reflexivity.
Defined.

Lemma own_message_is_the_fallback_run :
  (nullish error_404 = false
   /\ nullish (opt_prop (opt_prop (read_field error_404 "response") "data") "message")
      = true)
  /\ promise_then (Rejected error_404) interceptor_onFulfilled interceptor_onRejected
     = Rejected
         (failure_record (VString "Request failed with status code 404")
            (VNumber 404) "Not Found").
Proof.
  split.
  - split; reflexivity.
  - apply (own_message_is_the_fallback error_404); reflexivity.
Defined.

Lemma label_identifies_status_run :
  (getErrorMessage (VNumber 403) = getErrorMessage (VNumber 403)
   /\ getErrorMessage (VNumber 403) <> "Error")
  /\ 403%Z = 403%Z.
Proof.
  split.
  - split; [reflexivity | discriminate].
  - apply (label_identifies_status 403 403); [reflexivity | discriminate].
Defined.

Lemma request_failure_keeps_only_message_run :
  mock (Rejected error_404) (axios_call PUT "/items/1" VNull (module start))
    (world start) = (Rejected error_404, tt)
  /\ exists reason,
      fst (http (mock (Rejected error_404)) PUT "/items/1" VNull start)
      = Normal (Rejected reason) /\
      fst (request (mock (Rejected error_404)) PUT "/items/1" VNull start)
      = Fulfilled (failure_envelope (read_field reason "message") VUndefined "Error").
Proof.
  split; [reflexivity |].
  apply (request_failure_keeps_only_message (mock (Rejected error_404))
           PUT "/items/1" VNull start error_404 tt).
  reflexivity.
Defined.

Lemma guard_ignores_other_keys_run :
  "theme" <> "token_user"
  /\ beforeEach_guard (mkRoute "/") (setItem empty_storage "theme" "dark")
     = beforeEach_guard (mkRoute "/") empty_storage
  /\ beforeEach_guard (mkRoute "/") (removeItem empty_storage "theme")
     = beforeEach_guard (mkRoute "/") empty_storage.
Proof.
  split; [discriminate |].
  apply (guard_ignores_other_keys "theme" "dark" (mkRoute "/") empty_storage).
  discriminate.
Defined.

(** ** Calls that fail before the interceptors *)

Section Instance.

Context {World : Type}.
Variable instance : AxiosCall -> World -> instance_outcome * World.
Variable dispatch : AxiosCall -> World -> settled * World.
Implicit Type s : Machine World.

Ltac step_general H :=
  unfold General.request, General.http, async, try_catch, bind, await, ret,
    throw, lift;
  cbv zeta; rewrite H.

(** On an instance whose calls all reach dispatch, the general [request] is
    the [request] of the sections above. *)
Lemma request_is_general method url data s :
  request dispatch method url data s
  = General.request (dispatching dispatch) method url data s.
Proof.
  unfold request, http, General.request, General.http, dispatching, async,
    try_catch, bind.
  cbv zeta.
  destruct (dispatch (axios_call method url data (module s)) (world s)) as [p w].
  reflexivity.
Qed.

(** The call failed before the interceptors: the [catch] block is handed the
    thrown value itself.  It reads [error.message] without a guard, so on
    [undefined] or [null] it throws and [request] rejects. *)
Lemma request_thrown method url data s e w :
  instance (axios_call method url data (module s)) (world s) = (Thrown e, w) ->
  General.request instance method url data s
  = (if nullish e
     then Rejected (TypeError e "message")
     else Fulfilled
            (failure_envelope (error_message e) (error_status e)
               (getErrorMessage (error_status e))),
     mkMachine (module s) w (sent s ++ [axios_call method url data (module s)])).
Proof.
  intros H. step_general H.
  destruct (nullish e) eqn:He.
  - rewrite (request_catch_nullish e _ He). reflexivity.
  - rewrite (request_catch_object e _ He). reflexivity.
Qed.

Lemma request_dispatched method url data s p w :
  instance (axios_call method url data (module s)) (world s) = (Dispatched p, w) ->
  exists envelope,
    is_envelope envelope /\
    General.request instance method url data s
    = (Fulfilled envelope,
       mkMachine (module s) w (sent s ++ [axios_call method url data (module s)])).
Proof.
  intros H. step_general H. unfold promise_then, interceptor_onFulfilled, get_prop.
  destruct p as [r | e].
  - destruct (nullish r) eqn:Hr.
    + destruct (nullish_cases r Hr) as [-> | ->];
        (eexists; split; [right; eexists _, VUndefined; reflexivity | reflexivity]).
    + eexists. split; [left; eexists; reflexivity | reflexivity].
  - destruct (nullish e) eqn:He.
    + rewrite (interceptor_onRejected_nullish e He).
      destruct (nullish_cases e He) as [-> | ->];
        (eexists; split; [right; eexists _, VUndefined; reflexivity | reflexivity]).
    + rewrite (interceptor_onRejected_object e He).
      eexists. split; [right; eexists _, VUndefined; reflexivity | reflexivity].
Qed.

End Instance.

Section InstanceClaims.

Context {World : Type}.
Variable instance : AxiosCall -> World -> instance_outcome * World.
Variable dispatch : AxiosCall -> World -> settled * World.
Implicit Type s : Machine World.

(** C3 (what the code does where the claim expects an envelope): when the
    call on the instance throws [undefined] or [null] before the
    interceptors run, as it does while axios copies a body whose accessor
    throws that value, the [catch] block of [request] throws on its unguarded
    [error.message] and [request] rejects with that [TypeError]. *)
Theorem request_rejects_on_nullish_throw method url data s e w :
  instance (axios_call method url data (module s)) (world s) = (Thrown e, w) ->
  nullish e = true ->
  fst (General.request instance method url data s) = Rejected (TypeError e "message")
  /\ fst (request_catch e s) = Throw (TypeError e "message").
Proof.
  intros H He. split.
  - rewrite (request_thrown instance _ _ _ _ _ _ H), He. reflexivity.
  - rewrite (request_catch_nullish e s He). reflexivity.
Qed.


(** X16: whenever the call reaches dispatch, whatever the transport then does
    (a response, or a rejection with any value), [request] and the five
    wrappers resolve with an envelope of one of the two shapes. *)
Theorem request_resolves_with_envelope method url data s :
  (exists envelope,
      fst (request dispatch method url data s) = Fulfilled envelope /\
      is_envelope envelope) /\
  (exists envelope,
      fst (get dispatch url s) = Fulfilled envelope /\ is_envelope envelope) /\
  (exists envelope,
      fst (post dispatch url data s) = Fulfilled envelope /\ is_envelope envelope) /\
  (exists envelope,
      fst (put dispatch url data s) = Fulfilled envelope /\ is_envelope envelope) /\
  (exists envelope,
      fst (patch dispatch url data s) = Fulfilled envelope /\ is_envelope envelope) /\
  (exists envelope,
      fst (delete dispatch url s) = Fulfilled envelope /\ is_envelope envelope).
Proof.
  assert (one : forall m u d,
             exists envelope,
               fst (request dispatch m u d s) = Fulfilled envelope /\
               is_envelope envelope).
  { intros m u d. rewrite request_is_general.
    destruct (dispatch (axios_call m u d (module s)) (world s)) as [p w] eqn:H.
    assert (H' : dispatching dispatch (axios_call m u d (module s)) (world s)
                 = (Dispatched p, w))
      by (unfold dispatching; rewrite H; reflexivity).
    destruct (request_dispatched (dispatching dispatch) m u d s p w H')
      as (envelope & Henv & ->).
    exists envelope. split; [reflexivity | exact Henv]. }
  unfold get, post, put, patch, delete. repeat split; apply one.
Qed.

(** C9 (what the code does where the claim expects agreement): for one and
    the same transport error with a status, a caller of the instance is
    rejected with [{ message, status, errorMessage }] carrying that status
    and its label, while a caller of [request] gets a failure record with the
    same message, status [undefined] and the label "Error".  The two records
    differ. *)
Theorem wrapper_disagrees_with_instance method url data s e w :
  dispatch (axios_call method url data (module s)) (world s) = (Rejected e, w) ->
  nullish e = false ->
  error_status e <> VUndefined ->
  fst (http dispatch method url data s)
  = Normal (Rejected (failure_record (error_message e) (error_status e)
                        (getErrorMessage (error_status e))))
  /\ fst (request dispatch method url data s)
     = Fulfilled (VObject [("data", VNull);
                           ("error",
                            failure_record (error_message e) VUndefined "Error")])
  /\ failure_record (error_message e) (error_status e)
       (getErrorMessage (error_status e))
     <> failure_record (error_message e) VUndefined "Error".
Proof.
  intros H He Hs. split; [| split].
  - unfold http. cbv zeta. rewrite H. unfold promise_then.
    rewrite (interceptor_onRejected_object e He). reflexivity.
  - rewrite (request_rejected dispatch _ _ _ _ _ _ H), He. reflexivity.
  - intros E. apply Hs. unfold failure_record in E. injection E as E. exact E.
Qed.

End InstanceClaims.

(** ** Runs of the revised statements *)

Lemma request_rejects_on_nullish_throw_run :
  (mock_instance (Thrown VNull) (axios_call POST "/items" (VObject []) (module start))
     (world start) = (Thrown VNull, tt)
   /\ nullish VNull = true)
  /\ (fst (General.request (mock_instance (Thrown VNull)) POST "/items" (VObject [])
            start)
      = Rejected (TypeError VNull "message")
      /\ fst (request_catch VNull start) = Throw (TypeError VNull "message")).
Proof.
  split.
  - split; reflexivity.
  - apply (request_rejects_on_nullish_throw (mock_instance (Thrown VNull))
             POST "/items" (VObject []) start VNull tt); reflexivity.
Defined.

Lemma wrapper_disagrees_with_instance_run :
  (mock (Rejected error_404) (axios_call GET "/items/1" VUndefined (module start))
     (world start) = (Rejected error_404, tt)
   /\ nullish error_404 = false
   /\ error_status error_404 <> VUndefined)
  /\ (fst (http (mock (Rejected error_404)) GET "/items/1" VUndefined start)
      = Normal
          (Rejected
             (failure_record (VString "Request failed with status code 404")
                (VNumber 404) "Not Found"))
      /\ fst (request (mock (Rejected error_404)) GET "/items/1" VUndefined start)
         = Fulfilled
             (VObject
                [("data", VNull);
                 ("error",
                  failure_record (VString "Request failed with status code 404")
                    VUndefined "Error")])
      /\ failure_record (VString "Request failed with status code 404")
           (VNumber 404) "Not Found"
         <> failure_record (VString "Request failed with status code 404")
              VUndefined "Error").
Proof.
  split.
  - repeat split. discriminate.
  - apply (wrapper_disagrees_with_instance (mock (Rejected error_404))
             GET "/items/1" VUndefined start error_404 tt);
      [reflexivity | reflexivity | discriminate].
Defined.

Lemma guard_lets_its_redirect_through_run :
  beforeEach_guard (mkRoute "/") empty_storage = Fulfilled (VString "/login")
  /\ beforeEach_guard (mkRoute "/login") empty_storage = Fulfilled VUndefined.
Proof.
  split; [reflexivity |].
  apply (guard_lets_its_redirect_through (mkRoute "/") empty_storage "/login").
  reflexivity.
Defined.
